(** * Grid-trading P&L model: data contracts of [money_management.ts]

    A shallow embedding of [src/services/order-engine/models/money_management.ts].
    The TypeScript file declares interfaces, three calculator function types, the
    [GridTradingStrategy] interface and the [CALCULATION_CONSTANTS] table.

    - A TypeScript [number] is an IEEE-754 binary64 value: it is embedded as Rocq's
      primitive [float], so literals such as [0.02] denote the same double as in
      JavaScript and arithmetic rounds the same way.
    - An [interface] is a record; interfaces live in one module each, so that the
      field names of the source ([type], [side], [timestamp], ...) are kept.
    - A string-literal union is an inductive type with one constructor per literal.
    - An object literal used as a table is an association list keyed by property
      name, in declaration order. *)

From Stdlib Require Import Floats ZArith String List Bool Lia.
Import ListNotations.

Set Warnings "-inexact-float".
Local Open Scope string_scope.
Local Open Scope float_scope.
Local Open Scope list_scope.

(** ** JavaScript values used by the file *)

Module JS.

(** [number]: a binary64 double. *)
Definition number : Type := float.

(** [Date]: a wrapper around a time value (milliseconds since the epoch), which is
    what comparisons between dates read through [valueOf]. *)
Record Date : Type := mkDate { valueOf : number }.

(** The outcome of calling a function: it returns a value or throws. *)
Inductive Completion (E A : Type) : Type :=
| Return (a : A)
| Throw (e : E).
Arguments Return {E A} a.
Arguments Throw {E A} e.

(** Own-property read on an object literal: the value of the first entry with
    the key, [None] when the literal has no entry of that name.  Members that a
    JavaScript object inherits from [Object.prototype] ([toString],
    [constructor], ...) are not entries of the literal and are not modelled. *)
Fixpoint get {A : Type} (o : list (string * A)) (k : string) : option A :=
  match o with
  | [] => None
  | (k', v) :: rest => if String.eqb k k' then Some v else get rest k
  end.

(** [Object.keys]. *)
Definition keys {A : Type} (o : list (string * A)) : list string := map fst o.


(** [x === y] on numbers is IEEE equality. *)
Definition strictEq (x y : number) : bool := PrimFloat.eqb x y.

End JS.
Import JS.

(** ** Base types *)

Module Price.
Record t : Type := mk { value : number; timestamp : Date }.
End Price.

Module Volume.
Record t : Type := mk { amount : number; currency : string }.
End Volume.

(** ['BUY' | 'SELL'] *)
Inductive TradeType : Type := BUY | SELL.

Definition TradeType_literal (k : TradeType) : string :=
  match k with BUY => "BUY" | SELL => "SELL" end.

Module Trade.
Record t : Type := mk {
  id : string;
  type : TradeType;
  price : Price.t;
  volume : Volume.t;
  fee : number;
  timestamp : Date
}.
End Trade.

(** ['LONG' | 'SHORT'] *)
Inductive PositionSide : Type := LONG | SHORT.

Definition PositionSide_literal (k : PositionSide) : string :=
  match k with LONG => "LONG" | SHORT => "SHORT" end.

Module Position.
Record t : Type := mk {
  symbol : string;
  side : PositionSide;
  size : number;
  entryPrice : number;
  currentPrice : number;
  unrealizedPnl : number;
  timestamp : Date
}.
End Position.

(** ** Grid configuration *)

Module PriceRange.
Record t : Type := mk { upper : number; lower : number }.
End PriceRange.

Module GridConfig.
Record t : Type := mk {
  symbol : string;
  priceRange : PriceRange.t;
  gridLevels : number;
  gridSpacing : number;
  baseOrderSize : number;
  maxPositions : number
}.
End GridConfig.

(** [Partial<GridConfig>]: every top-level property becomes optional; the nested
    [priceRange] object is optional as a whole. *)
Module PartialGridConfig.
Record t : Type := mk {
  symbol : option string;
  priceRange : option PriceRange.t;
  gridLevels : option number;
  gridSpacing : option number;
  baseOrderSize : option number;
  maxPositions : option number
}.
End PartialGridConfig.

(** ** Cost components *)

Module TradingCosts.
Record t : Type := mk {
  buyFees : number;
  sellFees : number;
  spreadCost : number;
  slippageCost : number;
  fundingCost : number
}.
End TradingCosts.

Module InfrastructureCosts.
Record t : Type := mk {
  vpsCost : number;
  apiCost : number;
  softwareLicenses : number;
  networkCosts : number
}.
End InfrastructureCosts.

Module OpportunityCosts.
Record t : Type := mk {
  riskFreeRate : number;
  alternativeInvestmentReturn : number;
  timeValue : number
}.
End OpportunityCosts.

Module RiskCosts.
Record t : Type := mk {
  drawdownImpact : number;
  volatilityPenalty : number;
  correlationRisk : number;
  liquidityRisk : number
}.
End RiskCosts.

Module HiddenCosts.
Record t : Type := mk {
  rebalancingCost : number;
  gapRisk : number;
  liquidityCost : number;
  taxImplications : number
}.
End HiddenCosts.

(** ** Profit components *)

Module GridProfit.
Record t : Type := mk {
  realizedProfit : number;
  unrealizedPnl : number;
  totalTrades : number;
  successfulCycles : number;
  timestamp : Date
}.
End GridProfit.

Module TotalCosts.
Record t : Type := mk {
  trading : TradingCosts.t;
  infrastructure : InfrastructureCosts.t;
  opportunity : OpportunityCosts.t;
  risk : RiskCosts.t;
  hidden : HiddenCosts.t;
  totalAmount : number
}.
End TotalCosts.

(** ** Performance metrics *)

Module ReturnMetrics.
Record t : Type := mk {
  sharpeRatio : number;
  sortinoRatio : number;
  calmarRatio : number;
  annualReturn : number;
  volatility : number
}.
End ReturnMetrics.

Module RiskMetrics.
Record t : Type := mk {
  maximumDrawdown : number;
  valueAtRisk : number;
  winRate : number;
  averageWinLossRatio : number;
  recoveryTime : number
}.
End RiskMetrics.

Module EfficiencyMetrics.
Record t : Type := mk {
  profitFactor : number;
  recoveryFactor : number;
  tradesPerDay : number;
  averageProfitPerTrade : number;
  gridEfficiency : number
}.
End EfficiencyMetrics.

Module GridMetrics.
Record t : Type := mk {
  gridEfficiency : number;
  capitalUtilization : number;
  cycleCompletionRate : number;
  averageGridSpacing : number;
  maxCapitalAtRisk : number
}.
End GridMetrics.

(** ** Final P&L calculation *)

Module PnLCalculation.
Record t : Type := mk {
  gridProfit : GridProfit.t;
  totalCosts : TotalCosts.t;
  netProfit : number;
  riskAdjustedReturn : number;
  finalPnl : number;
  calculationDate : Date
}.
End PnLCalculation.

(** [{ start: Date; end: Date }] *)
Module Timeframe.
Record t : Type := mk { start : Date; end_ : Date }.
End Timeframe.

Module PerformanceReport.
Record t : Type := mk {
  pnl : PnLCalculation.t;
  returnMetrics : ReturnMetrics.t;
  riskMetrics : RiskMetrics.t;
  efficiencyMetrics : EfficiencyMetrics.t;
  gridMetrics : GridMetrics.t;
  period : Timeframe.t
}.
End PerformanceReport.

(** ** Calculator function types

    A call of a TypeScript function returns a value of the declared type or
    throws; [E] is the type of what is thrown. *)

Definition PnLCalculator (E : Type) : Type :=
  list Trade.t -> list Position.t -> GridConfig.t -> TotalCosts.t -> Timeframe.t ->
  Completion E PnLCalculation.t.

Definition RiskCalculator (E : Type) : Type :=
  list number -> number -> Completion E RiskMetrics.t.

Definition EfficiencyCalculator (E : Type) : Type :=
  list Trade.t -> PnLCalculation.t -> Timeframe.t -> Completion E EfficiencyMetrics.t.

(** ** Grid trading strategy interface

    The data members are a record; a method reads the receiver and may mutate it,
    so it maps the receiver to an outcome and the receiver afterwards. *)

Module GridTradingStrategy.
Record t : Type := mk {
  config : GridConfig.t;
  currentPositions : list Position.t;
  tradeHistory : list Trade.t;
  performance : PerformanceReport.t
}.

Record methods (E : Type) : Type := mkMethods {
  calculatePnL : t -> Completion E PnLCalculation.t * t;
  updateGrid : PartialGridConfig.t -> t -> Completion E unit * t;
  getPerformanceReport : Timeframe.t -> t -> Completion E PerformanceReport.t * t;
  getTotalCosts : t -> Completion E TotalCosts.t * t;
  getRiskMetrics : t -> Completion E RiskMetrics.t * t
}.
Arguments calculatePnL {E} _ _.
Arguments updateGrid {E} _ _ _.
Arguments getPerformanceReport {E} _ _ _.
Arguments getTotalCosts {E} _ _.
Arguments getRiskMetrics {E} _ _.
End GridTradingStrategy.

(** ** Constants for calculations *)

Definition CALCULATION_CONSTANTS : list (string * number) :=
  [ ("DAYS_PER_YEAR", 365);
    ("TRADING_DAYS_PER_YEAR", 252);
    ("HOURS_PER_DAY", 24);
    ("MINUTES_PER_HOUR", 60);
    ("SECONDS_PER_MINUTE", 60);
    ("DEFAULT_RISK_FREE_RATE", 0.02);
    ("DEFAULT_MAKER_FEE", 0.001);
    ("DEFAULT_TAKER_FEE", 0.0015);
    ("DEFAULT_VAR_CONFIDENCE", 0.95);
    ("DEFAULT_MAX_DRAWDOWN_LIMIT", 0.2) ].

(** The keys the source groups under its rate, fee and risk comments all start
    with [DEFAULT_]. *)
Definition isDefaultKey (k : string) : bool := String.prefix "DEFAULT_" k.

(** A number strictly between 0 and 1. *)
Definition isFraction (v : number) : bool := (0 <? v) && (v <? 1).

(** A fraction read as a percentage, as in the comments of the table
    ([0.02] is "2% annual"). *)
Definition asPercent (v : number) : number := v * 100.

(** ** Consistency conditions the specification states over the records

    The interfaces carry no checks of their own.  The two definitions below
    follow the specification's wording, to be compared with what the record
    types admit. *)

Definition TradingCosts_total (c : TradingCosts.t) : number :=
  TradingCosts.buyFees c + TradingCosts.sellFees c + TradingCosts.spreadCost c
  + TradingCosts.slippageCost c + TradingCosts.fundingCost c.

Definition InfrastructureCosts_total (c : InfrastructureCosts.t) : number :=
  InfrastructureCosts.vpsCost c + InfrastructureCosts.apiCost c
  + InfrastructureCosts.softwareLicenses c + InfrastructureCosts.networkCosts c.

Definition OpportunityCosts_total (c : OpportunityCosts.t) : number :=
  OpportunityCosts.riskFreeRate c + OpportunityCosts.alternativeInvestmentReturn c
  + OpportunityCosts.timeValue c.

Definition RiskCosts_total (c : RiskCosts.t) : number :=
  RiskCosts.drawdownImpact c + RiskCosts.volatilityPenalty c
  + RiskCosts.correlationRisk c + RiskCosts.liquidityRisk c.

Definition HiddenCosts_total (c : HiddenCosts.t) : number :=
  HiddenCosts.rebalancingCost c + HiddenCosts.gapRisk c
  + HiddenCosts.liquidityCost c + HiddenCosts.taxImplications c.

(** "The sum of all five category totals", categories in declaration order. *)
Definition categorySum
  (tr : TradingCosts.t) (inf : InfrastructureCosts.t) (opp : OpportunityCosts.t)
  (rk : RiskCosts.t) (hid : HiddenCosts.t) : number :=
  TradingCosts_total tr + InfrastructureCosts_total inf + OpportunityCosts_total opp
  + RiskCosts_total rk + HiddenCosts_total hid.

Definition TotalCosts_componentSum (c : TotalCosts.t) : number :=
  categorySum (TotalCosts.trading c) (TotalCosts.infrastructure c)
    (TotalCosts.opportunity c) (TotalCosts.risk c) (TotalCosts.hidden c).

(** "totalAmount equals the sum of all five category totals". *)
Definition TotalCosts_consistent (c : TotalCosts.t) : Prop :=
  TotalCosts.totalAmount c = TotalCosts_componentSum c.

(** "upper > lower and gridLevels >= 1", as a check on a configuration value
    with the comparisons of [number]. *)
Definition GridConfig_check (c : GridConfig.t) : bool :=
  (PriceRange.lower (GridConfig.priceRange c) <? PriceRange.upper (GridConfig.priceRange c))
  && (1 <=? GridConfig.gridLevels c).

(** Configuration values used in examples below. *)
Definition invertedRangeConfig : GridConfig.t :=
  GridConfig.mk "BTCUSDT" (PriceRange.mk 100 200) 0 10 1 5.

Definition sampleConfig : GridConfig.t :=
  GridConfig.mk "BTCUSDT" (PriceRange.mk 200 100) 10 10 1 5.

Definition zeroTradingCosts : TradingCosts.t := TradingCosts.mk 0 0 0 0 0.
Definition zeroInfrastructureCosts : InfrastructureCosts.t := InfrastructureCosts.mk 0 0 0 0.
Definition zeroOpportunityCosts : OpportunityCosts.t := OpportunityCosts.mk 0 0 0.
Definition zeroRiskCosts : RiskCosts.t := RiskCosts.mk 0 0 0 0.
Definition zeroHiddenCosts : HiddenCosts.t := HiddenCosts.mk 0 0 0 0.

(** All components zero, [totalAmount] 1: a well-typed [TotalCosts]. *)
Definition inconsistentCosts : TotalCosts.t :=
  TotalCosts.mk zeroTradingCosts zeroInfrastructureCosts zeroOpportunityCosts
    zeroRiskCosts zeroHiddenCosts 1.

Definition sampleCosts : TotalCosts.t :=
  TotalCosts.mk (TradingCosts.mk 1 2 0.5 0.25 0) (InfrastructureCosts.mk 3 1 0 0)
    (OpportunityCosts.mk 0 0 0) (RiskCosts.mk 0 0 0 0) (HiddenCosts.mk 0 0 0 0.25) 8.

(** ** Calculator and strategy contracts

    The source declares the calculators and the strategy methods by type only;
    no function of these types is defined in it.  Their behaviour is taken from
    sections 4.1, 4.2 and 4.4 of the specification. *)

Module Contract.

(** Modelled from the spec: the error kinds of section 7 (InvalidWindow,
    EmptyInput, InsufficientData); the source defines no error type. *)
Inductive CalcError : Type := InvalidWindow | EmptyInput | InsufficientData.

(** Modelled from the spec: what section 4.1 leaves to the implementer (the
    risk-adjustment formula, the cycle count, the date stamped on the result, and
    whether empty input is an error).  No body for these exists in the source. *)
Record Policy : Type := mkPolicy {
  rejectEmptyInput : bool;
  successfulCyclesOf : list Trade.t -> GridConfig.t -> number;
  riskAdjustedReturnOf : GridConfig.t -> TotalCosts.t -> number -> number;
  finalPnlOf : number -> number -> number;
  stampOf : Timeframe.t -> Date
}.

(** Modelled from the spec: "sum of ...", as a left-to-right sum from 0 (the
    order matters for doubles); the source has no summation. *)
Definition sum (xs : list number) : number := fold_left PrimFloat.add xs 0.

(** Modelled from the spec: the SELL fills of "SELL proceeds"; the source only
    declares the discriminant [type]. *)
Definition isSell (t : Trade.t) : bool :=
  match Trade.type t with SELL => true | BUY => false end.

(** Modelled from the spec: the proceeds or cost of a fill, price times
    quantity (100 at 10 is 1000 in the spec's example); absent from the source. *)
Definition notional (t : Trade.t) : number :=
  Price.value (Trade.price t) * Volume.amount (Trade.volume t).

(** Modelled from the spec: membership of a date in the window [start, end];
    the source has no such function. *)
Definition inWindow (tf : Timeframe.t) (d : Date) : bool :=
  (valueOf (Timeframe.start tf) <=? valueOf d) && (valueOf d <=? valueOf (Timeframe.end_ tf)).

(** Modelled from the spec: the trades "within [start,end]", by the timestamp
    of the trade; absent from the source. *)
Definition tradesInWindow (tf : Timeframe.t) (trades : list Trade.t) : list Trade.t :=
  filter (fun t => inWindow tf (Trade.timestamp t)) trades.

(** Modelled from the spec: "SELL proceeds"; absent from the source. *)
Definition sellProceeds (ts : list Trade.t) : number := sum (map notional (filter isSell ts)).

(** Modelled from the spec: "fees", of BUY and SELL fills alike; absent from the
    source. *)
Definition totalFees (ts : list Trade.t) : number := sum (map Trade.fee ts).

(** Modelled from the spec: an open BUY lot, its price and the quantity of it
    not yet sold; absent from the source. *)
Definition Lot : Type := (number * number)%type.

(** Modelled from the spec: the BUY cost matched to a SELL of quantity [q],
    added to [cost].  The spec says "matched" and names no matching rule; first
    in, first out is modelled: the SELL takes the oldest open lots first and is
    charged price times quantity taken.  What a SELL sells beyond the open lots
    is charged nothing.  Absent from the source. *)
Fixpoint takeLots (lots : list Lot) (q : number) (cost : number) : number * list Lot :=
  match lots with
  | [] => (cost, [])
  | (p, a) :: rest =>
      if 0 <? q then
        if q <? a then (cost + p * q, (p, a - q) :: rest)
        else takeLots rest (q - a) (cost + p * a)
      else (cost, lots)
  end.

(** Modelled from the spec: one pass over the ordered trade sequence.  A BUY
    opens a lot; a SELL closes lots, and what it is charged enters the matched
    cost when the SELL lies in the window.  Absent from the source. *)
Fixpoint matchedCostFrom (tf : Timeframe.t) (lots : list Lot) (trades : list Trade.t)
  (cost : number) : number :=
  match trades with
  | [] => cost
  | t :: rest =>
      match Trade.type t with
      | BUY =>
          matchedCostFrom tf
            (lots ++ [(Price.value (Trade.price t), Volume.amount (Trade.volume t))])
            rest cost
      | SELL =>
          let '(charged, lots') := takeLots lots (Volume.amount (Trade.volume t)) cost in
          matchedCostFrom tf lots' rest
            (if inWindow tf (Trade.timestamp t) then charged else cost)
      end
  end.

(** Modelled from the spec: "matched BUY cost" of the SELLs within the window;
    absent from the source. *)
Definition matchedBuyCost (tf : Timeframe.t) (trades : list Trade.t) : number :=
  matchedCostFrom tf [] trades 0.

(** Modelled from the spec: "signed trade proceeds (SELL proceeds - matched BUY
    cost - fees) for trades within [start,end]"; absent from the source. *)
Definition realizedOf (tf : Timeframe.t) (trades : list Trade.t) : number :=
  sellProceeds (tradesInWindow tf trades) - matchedBuyCost tf trades
  - totalFees (tradesInWindow tf trades).

(** Modelled from the spec: "sign(side)", +1 for LONG and -1 for SHORT; absent
    from the source. *)
Definition sideSign (s : PositionSide) : number :=
  match s with LONG => 1 | SHORT => -1 end.

(** Modelled from the spec: "(currentPrice - entryPrice) x size x sign(side)",
    summed over the positions; the source has no such function. *)
Definition positionPnl (p : Position.t) : number :=
  (Position.currentPrice p - Position.entryPrice p) * Position.size p
  * sideSign (Position.side p).

(** Modelled from the spec: "gridProfit.unrealizedPnl = sum over current
    Positions of ..."; absent from the source. *)
Definition unrealizedOf (ps : list Position.t) : number := sum (map positionPnl ps).

(** Modelled from the spec: the number of trades counted into [totalTrades], as
    a [number]; absent from the source. *)
Definition count {A : Type} (xs : list A) : number :=
  fold_left (fun n _ => n + 1) xs 0.

(** Modelled from the spec: "no trades and no positions are supplied"; absent
    from the source. *)
Definition noInput (trades : list Trade.t) (positions : list Position.t) : bool :=
  match trades, positions with
  | [], [] => true
  | _, _ => false
  end.

Section Calculators.
Variable policy : Policy.

(** Modelled from the spec: the P&L calculator of section 4.1; the source
    declares only its type, [PnLCalculator]. *)
Definition pnlCalculator : PnLCalculator CalcError :=
  fun trades positions config costs timeframe =>
    if valueOf (Timeframe.end_ timeframe) <? valueOf (Timeframe.start timeframe)
    then Throw InvalidWindow
    else if rejectEmptyInput policy && noInput trades positions
    then Throw EmptyInput
    else
      let window := tradesInWindow timeframe trades in
      let realized := realizedOf timeframe trades in
      let unrealized := unrealizedOf positions in
      let net := realized + unrealized - TotalCosts.totalAmount costs in
      let rar := riskAdjustedReturnOf policy config costs net in
      Return
        (PnLCalculation.mk
           (GridProfit.mk realized unrealized (count window)
              (successfulCyclesOf policy window config) (stampOf policy timeframe))
           costs net rar (finalPnlOf policy net rar) (stampOf policy timeframe)).

(** Modelled from the spec: the metric formulas of section 4.2, which the spec
    names but does not fix; they stay a parameter. *)
Variable metricsOf : list number -> number -> RiskMetrics.t.

(** Modelled from the spec: the risk calculator of section 4.2, which fails with
    InsufficientData on an empty returns sequence; the source declares only its
    type, [RiskCalculator]. *)
Definition riskCalculator : RiskCalculator CalcError :=
  fun returns riskFreeRate =>
    match returns with
    | [] => Throw InsufficientData
    | _ :: _ => Return (metricsOf returns riskFreeRate)
    end.

(** Modelled from the spec: the cost snapshot and the window a strategy hands to
    its calculator; the spec does not say where the strategy object keeps them,
    so they stay parameters. *)
Variable costsOf : GridTradingStrategy.t -> TotalCosts.t.
Variable windowOf : GridTradingStrategy.t -> Timeframe.t.

(** Modelled from the spec: [calculatePnL()] of section 4.4, a pure computation
    over the strategy's data; the source declares only its signature. *)
Definition calculatePnL (s : GridTradingStrategy.t)
  : Completion CalcError PnLCalculation.t * GridTradingStrategy.t :=
  (pnlCalculator (GridTradingStrategy.tradeHistory s) (GridTradingStrategy.currentPositions s)
     (GridTradingStrategy.config s) (costsOf s) (windowOf s), s).

End Calculators.



(** [p.f ?? c.f]: the provided value of a field, else the current one. *)
Definition orElse {A : Type} (o : option A) (d : A) : A :=
  match o with Some a => a | None => d end.

(** Modelled from the spec: the merge of section 4.4, "merging only provided
    fields, leaving others unchanged"; the source has no such function. *)
Definition mergeConfig (c : GridConfig.t) (p : PartialGridConfig.t) : GridConfig.t :=
  GridConfig.mk
    (orElse (PartialGridConfig.symbol p) (GridConfig.symbol c))
    (orElse (PartialGridConfig.priceRange p) (GridConfig.priceRange c))
    (orElse (PartialGridConfig.gridLevels p) (GridConfig.gridLevels c))
    (orElse (PartialGridConfig.gridSpacing p) (GridConfig.gridSpacing c))
    (orElse (PartialGridConfig.baseOrderSize p) (GridConfig.baseOrderSize c))
    (orElse (PartialGridConfig.maxPositions p) (GridConfig.maxPositions c)).

(** Modelled from the spec: [updateGrid(partial)] of section 4.4, which mutates
    the configuration in place; the source declares only its signature. *)
Definition updateGrid (p : PartialGridConfig.t) (s : GridTradingStrategy.t)
  : Completion CalcError unit * GridTradingStrategy.t :=
  (Return tt,
   GridTradingStrategy.mk (mergeConfig (GridTradingStrategy.config s) p)
     (GridTradingStrategy.currentPositions s) (GridTradingStrategy.tradeHistory s)
     (GridTradingStrategy.performance s)).

End Contract.

(** ** Worked inputs *)

(** BUY 100 at 10, fee 0.1, filled at time 1000. *)
Definition exampleBuy : Trade.t :=
  Trade.mk "t1" BUY (Price.mk 10 (mkDate 1000)) (Volume.mk 100 "BTC") 0.1 (mkDate 1000).

(** SELL 100 at 12, fee 0.1, filled at time 2000. *)
Definition exampleSell : Trade.t :=
  Trade.mk "t2" SELL (Price.mk 12 (mkDate 2000)) (Volume.mk 100 "BTC") 0.1 (mkDate 2000).

Definition exampleTrades : list Trade.t := [exampleBuy; exampleSell].

(** A window covering both fills. *)
Definition exampleWindow : Timeframe.t := Timeframe.mk (mkDate 0) (mkDate 3000).

Definition examplePolicy : Contract.Policy :=
  Contract.mkPolicy false (fun _ _ => 0) (fun _ _ net => net) (fun net _ => net)
    Timeframe.end_.

Definition exampleGridProfit : GridProfit.t := GridProfit.mk 0 0 0 0 (mkDate 0).

Definition examplePnl : PnLCalculation.t :=
  PnLCalculation.mk exampleGridProfit sampleCosts 0 0 0 (mkDate 0).

Definition exampleReport : PerformanceReport.t :=
  PerformanceReport.mk examplePnl (ReturnMetrics.mk 0 0 0 0 0) (RiskMetrics.mk 0 0 0 0 0)
    (EfficiencyMetrics.mk 0 0 0 0 0) (GridMetrics.mk 0 0 0 0 0) exampleWindow.

Definition exampleStrategy : GridTradingStrategy.t :=
  GridTradingStrategy.mk sampleConfig [] exampleTrades exampleReport.



(** An update that provides [gridLevels] and [maxPositions] only. *)
Definition examplePartial : PartialGridConfig.t :=
  PartialGridConfig.mk None None (Some 20) None None (Some 8).

(** The configuration a strategy holds after [updateGrid(p)]. *)
Definition configAfter (p : PartialGridConfig.t) (s : GridTradingStrategy.t) : GridConfig.t :=
  GridTradingStrategy.config (snd (Contract.updateGrid p s)).

Definition exampleMetrics : list number -> number -> RiskMetrics.t :=
  fun _ _ => RiskMetrics.mk 0 0 0 0 0.

(** * Properties *)

(** ** Comparisons of [number] *)

Section NumberOrder.

Lemma SFcompare_swap (a b : spec_float) :
  SFcompare b a = option_map CompOpp (SFcompare a b).
Proof.
  destruct a as [sa|sa| |sa ma ea], b as [sb|sb| |sb mb eb]; try reflexivity;
    try (destruct sa; reflexivity); try (destruct sb; reflexivity);
    try (destruct sa, sb; reflexivity).
  cbn [SFcompare option_map]. f_equal.
  change (IntDef.Z.compare eb ea) with (Z.compare eb ea).
  change (IntDef.Z.compare ea eb) with (Z.compare ea eb).
  change (PosDef.Pos.compare_cont Eq mb ma) with (Pos.compare mb ma).
  change (PosDef.Pos.compare_cont Eq ma mb) with (Pos.compare ma mb).
  rewrite (Z.compare_antisym ea eb), (Pos.compare_antisym ma mb).
  destruct sa, sb; try reflexivity;
    destruct (Z.compare ea eb); try reflexivity;
    destruct (Pos.compare ma mb); reflexivity.
Qed.

(** [x <= y] excludes [y < x], also when an operand is NaN or infinite. *)
Lemma leb_true_ltb_false (x y : number) : (x <=? y) = true -> (y <? x) = false.
Proof.
  rewrite leb_spec, ltb_spec. unfold SFleb, SFltb.
  rewrite (SFcompare_swap (Prim2SF x) (Prim2SF y)).
  destruct (SFcompare (Prim2SF x) (Prim2SF y)) as [[ | | ]|]; cbn; congruence.
Qed.





(** Two numbers that [===] tells apart are different values. *)
Lemma strictEq_false_neq (x y : number) : strictEq x x = true -> strictEq x y = false -> x <> y.
Proof.
  intros Hxx Hxy Heq. rewrite <- Heq in Hxy. congruence.
Qed.

End NumberOrder.

(** ** The constants table *)

(** C1. [CALCULATION_CONSTANTS] binds the seven values the specification lists:
    DAYS_PER_YEAR = 365, TRADING_DAYS_PER_YEAR = 252, DEFAULT_RISK_FREE_RATE = 0.02,
    DEFAULT_MAKER_FEE = 0.001, DEFAULT_TAKER_FEE = 0.0015,
    DEFAULT_VAR_CONFIDENCE = 0.95 and DEFAULT_MAX_DRAWDOWN_LIMIT = 0.2. *)
Theorem CALCULATION_CONSTANTS_listed :
  get CALCULATION_CONSTANTS "DAYS_PER_YEAR" = Some 365
  /\ get CALCULATION_CONSTANTS "TRADING_DAYS_PER_YEAR" = Some 252
  /\ get CALCULATION_CONSTANTS "DEFAULT_RISK_FREE_RATE" = Some 0.02
  /\ get CALCULATION_CONSTANTS "DEFAULT_MAKER_FEE" = Some 0.001
  /\ get CALCULATION_CONSTANTS "DEFAULT_TAKER_FEE" = Some 0.0015
  /\ get CALCULATION_CONSTANTS "DEFAULT_VAR_CONFIDENCE" = Some 0.95
  /\ get CALCULATION_CONSTANTS "DEFAULT_MAX_DRAWDOWN_LIMIT" = Some 0.2.
Proof.
  repeat split; reflexivity.
Qed.

(** C9. Beyond the seven listed constants the table also defines
    HOURS_PER_DAY = 24, MINUTES_PER_HOUR = 60 and SECONDS_PER_MINUTE = 60; these
    three are its third to fifth keys, and the table has ten keys in all. *)
Theorem CALCULATION_CONSTANTS_time_conversion :
  get CALCULATION_CONSTANTS "HOURS_PER_DAY" = Some 24
  /\ get CALCULATION_CONSTANTS "MINUTES_PER_HOUR" = Some 60
  /\ get CALCULATION_CONSTANTS "SECONDS_PER_MINUTE" = Some 60
  /\ keys CALCULATION_CONSTANTS =
     [ "DAYS_PER_YEAR"; "TRADING_DAYS_PER_YEAR"; "HOURS_PER_DAY"; "MINUTES_PER_HOUR";
       "SECONDS_PER_MINUTE"; "DEFAULT_RISK_FREE_RATE"; "DEFAULT_MAKER_FEE";
       "DEFAULT_TAKER_FEE"; "DEFAULT_VAR_CONFIDENCE"; "DEFAULT_MAX_DRAWDOWN_LIMIT" ].
Proof.
  repeat split; reflexivity.
Qed.

(** ** Discriminants *)

Lemma TradeType_literal_inj (a b : TradeType) :
  TradeType_literal a = TradeType_literal b -> a = b.
Proof. destruct a, b; simpl; intros H; try reflexivity; discriminate H. Qed.

Lemma PositionSide_literal_inj (a b : PositionSide) :
  PositionSide_literal a = PositionSide_literal b -> a = b.
Proof. destruct a, b; simpl; intros H; try reflexivity; discriminate H. Qed.

(** C10. The discriminant of a [Trade] is its field [type], whose value is
    exactly 'BUY' or 'SELL'; the [side] of a [Position] is exactly 'LONG' or
    'SHORT'.  No other value of either discriminant exists. *)
Theorem discriminants_closed :
  (forall t : Trade.t,
      TradeType_literal (Trade.type t) = "BUY" \/ TradeType_literal (Trade.type t) = "SELL")
  /\ (forall p : Position.t,
      PositionSide_literal (Position.side p) = "LONG"
      \/ PositionSide_literal (Position.side p) = "SHORT")
  /\ (forall k : TradeType, k = BUY \/ k = SELL)
  /\ (forall k : PositionSide, k = LONG \/ k = SHORT).
Proof.
  repeat split.
  - intros t. destruct (Trade.type t); [left | right]; reflexivity.
  - intros p. destruct (Position.side p); [left | right]; reflexivity.
  - intros k. destruct k; [left | right]; reflexivity.
  - intros k. destruct k; [left | right]; reflexivity.
Qed.

(** ** Cost totals *)

(** C2, as stated, fails: [inconsistentCosts] is a [TotalCosts] value whose
    components are all 0 (they sum to 0 in any order) and whose [totalAmount]
    is 1, so not every [TotalCosts] has [totalAmount] equal to the component sum. *)
Lemma TotalCosts_totalAmount_unconstrained :
  ~ (forall c : TotalCosts.t, TotalCosts_consistent c).
Proof.
  intros H. specialize (H inconsistentCosts). revert H.
  unfold TotalCosts_consistent.
  apply strictEq_false_neq; vm_compute; reflexivity.
Qed.

(** C2, amended.  [totalAmount] is a field stored independently of the five
    sub-records: whatever the sub-records, any number can be stored in it, and the
    value has [totalAmount] equal to the sum of the five category totals exactly
    when that sum is the number stored. *)
Theorem TotalCosts_consistent_iff_stored_sum :
  forall (tr : TradingCosts.t) (inf : InfrastructureCosts.t) (opp : OpportunityCosts.t)
         (rk : RiskCosts.t) (hid : HiddenCosts.t) (t : number),
    TotalCosts.totalAmount (TotalCosts.mk tr inf opp rk hid t) = t
    /\ (TotalCosts_consistent (TotalCosts.mk tr inf opp rk hid t)
        <-> t = categorySum tr inf opp rk hid).
Proof.
  intros tr inf opp rk hid t. split; [reflexivity|].
  unfold TotalCosts_consistent, TotalCosts_componentSum. simpl. tauto.
Qed.

(** ** Grid configuration *)

(** C6, as stated, fails: [invertedRangeConfig] is a [GridConfig] value with
    upper = 100, lower = 200 and gridLevels = 0; the record type admits it. *)
Lemma GridConfig_invariant_not_enforced :
  ~ (forall c : GridConfig.t,
        (PriceRange.lower (GridConfig.priceRange c)
           <? PriceRange.upper (GridConfig.priceRange c)) = true
        /\ (1 <=? GridConfig.gridLevels c) = true).
Proof.
  intros H. destruct (H invertedRangeConfig) as [Hrange _].
  vm_compute in Hrange. discriminate Hrange.
Qed.

(** C6, amended.  The conditions hold for the configurations that pass the
    explicit check [GridConfig_check], and for those only; every configuration
    with upper <= lower fails the check. *)
Theorem GridConfig_check_spec :
  forall c : GridConfig.t,
    (GridConfig_check c = true <->
       (PriceRange.lower (GridConfig.priceRange c)
          <? PriceRange.upper (GridConfig.priceRange c)) = true
       /\ (1 <=? GridConfig.gridLevels c) = true)
    /\ ((PriceRange.upper (GridConfig.priceRange c)
           <=? PriceRange.lower (GridConfig.priceRange c)) = true ->
        GridConfig_check c = false).
Proof.
  intros c. unfold GridConfig_check. split.
  - apply andb_true_iff.
  - intros Hle. apply leb_true_ltb_false in Hle. rewrite Hle. reflexivity.
Qed.

Lemma GridConfig_check_spec_witness :
  GridConfig_check invertedRangeConfig = false
  /\ (PriceRange.lower (GridConfig.priceRange sampleConfig)
        <? PriceRange.upper (GridConfig.priceRange sampleConfig)) = true
  /\ (1 <=? GridConfig.gridLevels sampleConfig) = true.
Proof.
  split.
  - apply (proj2 (GridConfig_check_spec invertedRangeConfig)). reflexivity.
  - apply (proj1 (proj1 (GridConfig_check_spec sampleConfig))). reflexivity.
Defined.

(** ** The P&L calculator contract *)

Section PnLContract.
Variable policy : Contract.Policy.

(** A returned result was built from a valid window, and is this record. *)
Lemma pnlCalculator_Return_inv trades positions config costs tf out :
  Contract.pnlCalculator policy trades positions config costs tf = Return out ->
  (valueOf (Timeframe.end_ tf) <? valueOf (Timeframe.start tf)) = false
  /\ out =
     PnLCalculation.mk
       (GridProfit.mk
          (Contract.realizedOf tf trades)
          (Contract.unrealizedOf positions)
          (Contract.count (Contract.tradesInWindow tf trades))
          (Contract.successfulCyclesOf policy (Contract.tradesInWindow tf trades) config)
          (Contract.stampOf policy tf))
       costs
       (Contract.realizedOf tf trades
        + Contract.unrealizedOf positions - TotalCosts.totalAmount costs)
       (Contract.riskAdjustedReturnOf policy config costs
          (Contract.realizedOf tf trades
           + Contract.unrealizedOf positions - TotalCosts.totalAmount costs))
       (Contract.finalPnlOf policy
          (Contract.realizedOf tf trades
           + Contract.unrealizedOf positions - TotalCosts.totalAmount costs)
          (Contract.riskAdjustedReturnOf policy config costs
             (Contract.realizedOf tf trades
              + Contract.unrealizedOf positions - TotalCosts.totalAmount costs)))
       (Contract.stampOf policy tf).
Proof.
  unfold Contract.pnlCalculator.
  destruct (valueOf (Timeframe.end_ tf) <? valueOf (Timeframe.start tf)); [discriminate|].
  destruct (Contract.rejectEmptyInput policy && Contract.noInput trades positions);
    [discriminate|].
  intros H. injection H as <-. split; reflexivity.
Qed.


(** It fails with InvalidWindow exactly when end < start. *)
Lemma pnlCalculator_InvalidWindow trades positions config costs tf :
  Contract.pnlCalculator policy trades positions config costs tf = Throw Contract.InvalidWindow
  <-> (valueOf (Timeframe.end_ tf) <? valueOf (Timeframe.start tf)) = true.
Proof.
  unfold Contract.pnlCalculator.
  destruct (valueOf (Timeframe.end_ tf) <? valueOf (Timeframe.start tf)).
  - tauto.
  - destruct (Contract.rejectEmptyInput policy && Contract.noInput trades positions);
      split; intros H; discriminate H.
Qed.

End PnLContract.



(** A fill outside the window does not enter the realized profit. *)
Lemma tradesInWindow_outside (tf : Timeframe.t) (t : Trade.t) (trades : list Trade.t) :
  Contract.inWindow tf (Trade.timestamp t) = false ->
  Contract.tradesInWindow tf (t :: trades) = Contract.tradesInWindow tf trades.
Proof. intros H. unfold Contract.tradesInWindow. simpl. rewrite H. reflexivity. Qed.

(** C3. For every [PnLCalculation] the calculator returns, [netProfit] is
    [gridProfit.realizedProfit + gridProfit.unrealizedPnl - totalCosts.totalAmount],
    as the same double (so within any tolerance), where [totalCosts] is the cost
    snapshot that was passed in. *)
Theorem netProfit_formula :
  forall (policy : Contract.Policy) (trades : list Trade.t) (positions : list Position.t)
         (config : GridConfig.t) (costs : TotalCosts.t) (tf : Timeframe.t)
         (out : PnLCalculation.t),
    Contract.pnlCalculator policy trades positions config costs tf = Return out ->
    PnLCalculation.netProfit out =
      GridProfit.realizedProfit (PnLCalculation.gridProfit out)
      + GridProfit.unrealizedPnl (PnLCalculation.gridProfit out)
      - TotalCosts.totalAmount (PnLCalculation.totalCosts out)
    /\ PnLCalculation.totalCosts out = costs.
Proof.
  intros policy trades positions config costs tf out H.
  apply pnlCalculator_Return_inv in H as [_ ->]. split; reflexivity.
Qed.

Lemma netProfit_formula_witness :
  exists out : PnLCalculation.t,
    Contract.pnlCalculator examplePolicy exampleTrades [] sampleConfig sampleCosts
      exampleWindow = Return out
    /\ PnLCalculation.netProfit out =
         GridProfit.realizedProfit (PnLCalculation.gridProfit out)
         + GridProfit.unrealizedPnl (PnLCalculation.gridProfit out)
         - TotalCosts.totalAmount (PnLCalculation.totalCosts out)
    /\ PnLCalculation.netProfit out = 191.8.
Proof.
  eexists. split; [reflexivity|]. split.
  - apply (netProfit_formula examplePolicy exampleTrades [] sampleConfig sampleCosts
             exampleWindow). reflexivity.
  - reflexivity.
Defined.







(** What first-in-first-out matching gives on three trade sequences: an open BUY
    realizes only its fee; a SELL of half a lot is charged half of it; a SELL
    inside the window is charged the BUY made before the window. *)
Remark realizedOf_examples :
  Contract.realizedOf exampleWindow [exampleBuy] = -0.1
  /\ Contract.realizedOf exampleWindow
       [Trade.mk "t0" BUY (Price.mk 10 (mkDate 1000)) (Volume.mk 200 "BTC") 0.1 (mkDate 1000);
        exampleSell] = 199.8
  /\ Contract.realizedOf (Timeframe.mk (mkDate 1500) (mkDate 3000)) exampleTrades = 199.9.
Proof.
  repeat split; vm_compute; reflexivity.
Qed.

(** ** The risk calculator contract *)

(** On a non-empty returns sequence the calculator returns the metrics. *)
Lemma riskCalculator_nonempty metricsOf (r : number) (rs : list number) (rf : number) :
  Contract.riskCalculator metricsOf (r :: rs) rf = Return (metricsOf (r :: rs) rf).
Proof. reflexivity. Qed.

(** InsufficientData is raised for the empty sequence only. *)
Lemma riskCalculator_InsufficientData_iff metricsOf (returns : list number) (rf : number) :
  Contract.riskCalculator metricsOf returns rf = Throw Contract.InsufficientData
  <-> returns = [].
Proof.
  destruct returns as [|r rs]; simpl; split; intros H;
    try reflexivity; discriminate H.
Qed.

(** C5. For every risk-free rate, the risk calculator applied to the empty
    returns sequence fails with InsufficientData, and returns no [RiskMetrics]. *)
Theorem riskCalculator_empty :
  forall (metricsOf : list number -> number -> RiskMetrics.t) (riskFreeRate : number),
    Contract.riskCalculator metricsOf [] riskFreeRate = Throw Contract.InsufficientData
    /\ (forall m : RiskMetrics.t,
          Contract.riskCalculator metricsOf [] riskFreeRate <> Return m).
Proof.
  intros metricsOf riskFreeRate. split.
  - apply riskCalculator_InsufficientData_iff. reflexivity.
  - intros m H. discriminate H.
Qed.

(** ** The strategy contract *)

Lemma orElse_None {A : Type} (d : A) : Contract.orElse None d = d.
Proof. reflexivity. Qed.

Lemma orElse_Some {A : Type} (v d : A) : Contract.orElse (Some v) d = v.
Proof. reflexivity. Qed.

(** A field the partial value provides takes the provided value. *)
Lemma updateGrid_sets_present (p : PartialGridConfig.t) (s : GridTradingStrategy.t) :
  (forall v, PartialGridConfig.symbol p = Some v -> GridConfig.symbol (configAfter p s) = v)
  /\ (forall v, PartialGridConfig.priceRange p = Some v ->
                GridConfig.priceRange (configAfter p s) = v)
  /\ (forall v, PartialGridConfig.gridLevels p = Some v ->
                GridConfig.gridLevels (configAfter p s) = v)
  /\ (forall v, PartialGridConfig.gridSpacing p = Some v ->
                GridConfig.gridSpacing (configAfter p s) = v)
  /\ (forall v, PartialGridConfig.baseOrderSize p = Some v ->
                GridConfig.baseOrderSize (configAfter p s) = v)
  /\ (forall v, PartialGridConfig.maxPositions p = Some v ->
                GridConfig.maxPositions (configAfter p s) = v).
Proof.
  unfold configAfter, Contract.updateGrid, Contract.mergeConfig; simpl.
  repeat split; intros v H; rewrite H; apply orElse_Some.
Qed.

(** An update that provides nothing leaves the strategy as it was. *)
Lemma updateGrid_empty (s : GridTradingStrategy.t) :
  snd (Contract.updateGrid (PartialGridConfig.mk None None None None None None) s) = s.
Proof. destruct s as [[sym rg lv sp bo mp] ps th pf]. reflexivity. Qed.

(** C7. [updateGrid(partial)] returns normally; every configuration field that
    the partial value does not provide keeps its value, and the positions, the
    trade history and the performance report of the strategy are not touched. *)
Theorem updateGrid_frame :
  forall (p : PartialGridConfig.t) (s : GridTradingStrategy.t),
    fst (Contract.updateGrid p s) = Return tt
    /\ (PartialGridConfig.symbol p = None ->
        GridConfig.symbol (configAfter p s) = GridConfig.symbol (GridTradingStrategy.config s))
    /\ (PartialGridConfig.priceRange p = None ->
        GridConfig.priceRange (configAfter p s)
        = GridConfig.priceRange (GridTradingStrategy.config s))
    /\ (PartialGridConfig.gridLevels p = None ->
        GridConfig.gridLevels (configAfter p s)
        = GridConfig.gridLevels (GridTradingStrategy.config s))
    /\ (PartialGridConfig.gridSpacing p = None ->
        GridConfig.gridSpacing (configAfter p s)
        = GridConfig.gridSpacing (GridTradingStrategy.config s))
    /\ (PartialGridConfig.baseOrderSize p = None ->
        GridConfig.baseOrderSize (configAfter p s)
        = GridConfig.baseOrderSize (GridTradingStrategy.config s))
    /\ (PartialGridConfig.maxPositions p = None ->
        GridConfig.maxPositions (configAfter p s)
        = GridConfig.maxPositions (GridTradingStrategy.config s))
    /\ GridTradingStrategy.currentPositions (snd (Contract.updateGrid p s))
       = GridTradingStrategy.currentPositions s
    /\ GridTradingStrategy.tradeHistory (snd (Contract.updateGrid p s))
       = GridTradingStrategy.tradeHistory s
    /\ GridTradingStrategy.performance (snd (Contract.updateGrid p s))
       = GridTradingStrategy.performance s.
Proof.
  intros p s.
  unfold configAfter, Contract.updateGrid, Contract.mergeConfig; simpl.
  repeat split; intros H; rewrite H; apply orElse_None.
Qed.

Lemma updateGrid_frame_witness :
  GridConfig.symbol (configAfter examplePartial exampleStrategy) = "BTCUSDT"
  /\ GridConfig.priceRange (configAfter examplePartial exampleStrategy) = PriceRange.mk 200 100
  /\ GridConfig.gridSpacing (configAfter examplePartial exampleStrategy) = 10
  /\ GridConfig.baseOrderSize (configAfter examplePartial exampleStrategy) = 1
  /\ GridConfig.gridLevels (configAfter examplePartial exampleStrategy) = 20
  /\ GridConfig.maxPositions (configAfter examplePartial exampleStrategy) = 8.
Proof.
  destruct (updateGrid_frame examplePartial exampleStrategy)
    as (_ & Hsym & Hrange & _ & Hspacing & Hbase & _).
  split; [exact (Hsym eq_refl)|].
  split; [exact (Hrange eq_refl)|].
  split; [exact (Hspacing eq_refl)|].
  split; [exact (Hbase eq_refl)|].
  split; reflexivity.
Defined.




(** ** More on the constants table *)

Section TableLookup.
Context {A : Type}.

Lemma get_Some_In (o : list (string * A)) (k : string) (v : A) :
  get o k = Some v -> In (k, v) o.
Proof.
  induction o as [|[k' v'] rest IH]; simpl; [discriminate|].
  destruct (String.eqb_spec k k') as [->|Hne].
  - intros H. injection H as ->. left. reflexivity.
  - intros H. right. exact (IH H).
Qed.




End TableLookup.




(** X2. Every value of the table is a positive normal double (not NaN, not
    infinite, not zero).  Every [DEFAULT_] constant is a fraction strictly
    between 0 and 1, never a percentage; every other constant is at least 24. *)
Theorem CALCULATION_CONSTANTS_value_ranges :
  forall (k : string) (v : number),
    get CALCULATION_CONSTANTS k = Some v ->
    classify v = PNormal
    /\ (if isDefaultKey k then isFraction v = true else (24 <=? v) = true).
Proof.
  intros k v H. apply get_Some_In in H. unfold CALCULATION_CONSTANTS in H.
  simpl in H.
  repeat (destruct H as [H|H];
          [injection H as <- <-; split; vm_compute; reflexivity|]).
  destruct H.
Qed.

Lemma CALCULATION_CONSTANTS_value_ranges_witness :
  classify 0.001 = PNormal /\ isFraction 0.001 = true.
Proof.
  exact (CALCULATION_CONSTANTS_value_ranges "DEFAULT_MAKER_FEE" 0.001 eq_refl).
Defined.

(** X3. The values agree with the percentages of their source comments: as
    doubles, the risk-free rate times 100 is exactly 2, the maker fee 0.1, the
    taker fee 0.15, the VaR confidence 95 and the drawdown limit 20. *)
Theorem CALCULATION_CONSTANTS_percentages :
  option_map asPercent (get CALCULATION_CONSTANTS "DEFAULT_RISK_FREE_RATE") = Some 2
  /\ option_map asPercent (get CALCULATION_CONSTANTS "DEFAULT_MAKER_FEE") = Some 0.1
  /\ option_map asPercent (get CALCULATION_CONSTANTS "DEFAULT_TAKER_FEE") = Some 0.15
  /\ option_map asPercent (get CALCULATION_CONSTANTS "DEFAULT_VAR_CONFIDENCE") = Some 95
  /\ option_map asPercent (get CALCULATION_CONSTANTS "DEFAULT_MAX_DRAWDOWN_LIMIT") = Some 20.
Proof.
  repeat split; vm_compute; reflexivity.
Qed.

(** ** More on the discriminants *)

(** X4. The four discriminant literals are pairwise distinct strings: the
    literal determines the [type] of a trade and the [side] of a position, and
    no trade literal is a position literal. *)
Theorem discriminant_literals_distinct :
  (forall a b : TradeType, TradeType_literal a = TradeType_literal b <-> a = b)
  /\ (forall a b : PositionSide, PositionSide_literal a = PositionSide_literal b <-> a = b)
  /\ (forall (a : TradeType) (b : PositionSide),
        TradeType_literal a <> PositionSide_literal b).
Proof.
  split; [|split].
  - intros a b. split; [apply TradeType_literal_inj|intros ->; reflexivity].
  - intros a b. split; [apply PositionSide_literal_inj|intros ->; reflexivity].
  - intros a b H. destruct a, b; discriminate H.
Qed.
